(** * AuthController: register, login, self, refresh, logout

    A shallow embedding of [src/controllers/AuthController.ts].

    The controller is an Express handler class.  Every method talks to three
    injected services (user, token, credential), to the winston logger, to the
    Express response object [res] and to the error boundary [next].  None of
    these collaborators is part of the controller, so the embedding keeps them
    abstract: a service method is a function of the collaborators' state that
    either returns a value or throws, and each interaction of a handler with
    the outside is recorded, in program order, in a trace of events.  The
    properties below are statements about these traces, for all services.

    Calls on [res], on the logger and of [next] are taken to return; a service
    method may throw at any call.  [await] is sequencing: a handler runs alone
    from its first statement to its last. *)

From Stdlib Require Import String ZArith List.
From Stdlib Require Import DecimalString.
From ExtLib Require Import Structures.Monad Structures.MonadExc.
Import ListNotations.
Import MonadNotation.
Local Open Scope string_scope.
Local Open Scope monad_scope.

Set Implicit Arguments.
Set Warnings "-register-all".

(** ** The host language *)

(** ECMAScript numbers and the two conversions the controller applies to them
    are built-ins of the host, as is the process configuration.  [JS_String n]
    is [String(n)]; [JS_Number v] is [Number(v)], where [None] stands for
    [undefined] (the [id] claim of [req.auth] is optional). *)
Class JSHost (number : Type) : Type := {
  JS_String : number -> string;
  JS_Number : option string -> number;
  Config_MAIN_DOMAIN : option string
}.

(** Errors: an [Error] object with a message and, for the errors built by
    [createHttpError], an HTTP status. *)
Record JsError : Type := {
  err_status : option Z;
  err_message : string
}.

Definition createHttpError (status : Z) (message : string) : JsError :=
  {| err_status := Some status; err_message := message |}.

(** What a call (or an awaited promise) ends with. *)
Inductive Outcome (A : Type) : Type :=
| Returned (a : A)
| Thrown (e : JsError).

Arguments Thrown {A} e.

(** Modelled from the spec: the role constants of [../constants], which is not
    among the sources; the spec's scenario gives the customer role the wire
    value "customer". *)
Definition Roles_CUSTOMER : string := "customer".

Section Model.

Context {number : Type} {host : JSHost number}.

(** Values handed to [res.json] and to the logger. *)
Inductive JsValue : Type :=
| JsUndefined
| JsNull
| JsBool (b : bool)
| JsNumber (n : number)
| JsString (s : string)
| JsArray (items : list JsValue)
| JsObject (props : list (string * JsValue)).

(** ** Data *)

(** Modelled from the spec: the entities of [../entity], which are not among
    the sources.  An identity has an id, names, a unique email, the stored
    password hash, a role and an optional tenant; a refresh-token record has a
    server-assigned id, its owner and an expiry. *)
Record Tenant : Type := { Tenant_id : number }.

Record User : Type := {
  User_id : number;
  User_firstName : string;
  User_lastName : string;
  User_email : string;
  User_password : string;
  User_role : string;
  User_tenant : option Tenant
}.

Record RefreshToken : Type := {
  RefreshToken_id : number;
  RefreshToken_user : User;
  RefreshToken_expiresAt : number
}.

(** The argument of [userService.create]. *)
Record UserData : Type := {
  data_firstName : string;
  data_lastName : string;
  data_email : string;
  data_password : string;
  data_role : string
}.

(** [JwtPayload], with the fields the controller writes.  [id] is present in
    refresh tokens only.  [req.auth] of an [AuthRequest] is a decoded payload
    of the same shape. *)
Record JwtPayload : Type := {
  sub : string;
  role : string;
  tenant : string;
  firstName : string;
  lastName : string;
  email : string;
  id : option string
}.

(** [{ ...payload, id: v }] *)
Definition with_id (payload : JwtPayload) (v : string) : JwtPayload :=
  {| sub := sub payload; role := role payload; tenant := tenant payload;
     firstName := firstName payload; lastName := lastName payload;
     email := email payload; id := Some v |}.

(** The options object of [res.cookie]. *)
Record CookieOptions : Type := {
  domain : option string;
  sameSite : string;
  maxAge : Z;
  httpOnly : bool
}.

(** Requests.  [body] is what the client sent; [validation] is what
    express-validator's [validationResult(req)] finds on the request. *)
Record RequestBody : Type := {
  body_firstName : string;
  body_lastName : string;
  body_email : string;
  body_password : string
}.

Record RegisterUserRequest : Type := {
  body : RequestBody;
  validation : list JsValue
}.

Record AuthRequest : Type := { auth : JwtPayload }.

Definition validationResult (req : RegisterUserRequest) : list JsValue :=
  validation req.

Definition isEmpty (result : list JsValue) : bool :=
  match result with [] => true | _ :: _ => false end.

Definition array (result : list JsValue) : list JsValue := result.

(** ** Events *)

(** One constructor per interaction; a service call carries its arguments and
    its outcome. *)
Inductive Event : Type :=
| E_create (data : UserData) (o : Outcome User)
| E_findByEmailWithPassword (mail : string) (o : Outcome (option User))
| E_findById (n : number) (o : Outcome (option User))
| E_comparePassword (plain hash : string) (o : Outcome bool)
| E_generateAccessToken (payload : JwtPayload) (o : Outcome string)
| E_generateRefreshToken (payload : JwtPayload) (o : Outcome string)
| E_persistRefreshToken (user : User) (o : Outcome RefreshToken)
| E_deleteRefreshToken (n : number) (o : Outcome unit)
| E_cookie (name value : string) (options : CookieOptions)
| E_clearCookie (name : string)
| E_status (code : Z)
| E_json (payload : JsValue)
| E_next (err : JsError)
| E_log (level message : string) (meta : JsValue).

(** ** The handler monad *)

Context {Σ : Type}.

(** A computation runs from a state of the collaborators to an outcome, the
    state it leaves and the events it caused. *)
Definition M (A : Type) : Type := Σ -> Outcome A * Σ * list Event.

Definition M_ret {A : Type} (a : A) : M A := fun s => (Returned a, s, []).

Definition M_bind {A B : Type} (m : M A) (k : A -> M B) : M B :=
  fun s =>
    match m s with
    | (Returned a, s1, t1) =>
        match k a s1 with (o, s2, t2) => (o, s2, (t1 ++ t2)%list) end
    | (Thrown e, s1, t1) => (Thrown e, s1, t1)
    end.

(** [try { m } catch (err) { h err }] *)
Definition M_catch {A : Type} (m : M A) (h : JsError -> M A) : M A :=
  fun s =>
    match m s with
    | (Returned a, s1, t1) => (Returned a, s1, t1)
    | (Thrown e, s1, t1) =>
        match h e s1 with (o, s2, t2) => (o, s2, (t1 ++ t2)%list) end
    end.

Definition M_raise {A : Type} (e : JsError) : M A := fun s => (Thrown e, s, []).

#[export] Instance Monad_M : Monad M :=
  {| ret := @M_ret; bind := @M_bind |}.

#[export] Instance MonadExc_M : MonadExc JsError M :=
  {| raise := @M_raise; catch := @M_catch |}.

(** A call of a service method, recorded with its outcome. *)
Definition call {A : Type} (f : Σ -> Outcome A * Σ) (ev : Outcome A -> Event) : M A :=
  fun s => match f s with (o, s1) => (o, s1, [ev o]) end.

(** An interaction that returns nothing. *)
Definition emit (e : Event) : M unit := fun s => (Returned tt, s, [e]).

Definition outcome {A : Type} (r : Outcome A * Σ * list Event) : Outcome A := fst (fst r).
Definition final {A : Type} (r : Outcome A * Σ * list Event) : Σ := snd (fst r).
Definition trace {A : Type} (r : Outcome A * Σ * list Event) : list Event := snd r.

(** ** The injected services *)

Record UserService : Type := {
  create : UserData -> Σ -> Outcome User * Σ;
  findByEmailWithPassword : string -> Σ -> Outcome (option User) * Σ;
  findById : number -> Σ -> Outcome (option User) * Σ
}.

Record TokenService : Type := {
  generateAccessToken : JwtPayload -> Σ -> Outcome string * Σ;
  generateRefreshToken : JwtPayload -> Σ -> Outcome string * Σ;
  persistRefreshToken : User -> Σ -> Outcome RefreshToken * Σ;
  deleteRefreshToken : number -> Σ -> Outcome unit * Σ
}.

Record CredentialService : Type := {
  comparePassword : string -> string -> Σ -> Outcome bool * Σ
}.

(** The constructor's parameters (the logger is reached through events). *)
Record AuthController : Type := {
  userService : UserService;
  tokenService : TokenService;
  credentialService : CredentialService
}.

Variable this : AuthController.

Definition userService_create (data : UserData) : M User :=
  call (create (userService this) data) (E_create data).

Definition userService_findByEmailWithPassword (mail : string) : M (option User) :=
  call (findByEmailWithPassword (userService this) mail) (E_findByEmailWithPassword mail).

Definition userService_findById (n : number) : M (option User) :=
  call (findById (userService this) n) (E_findById n).

Definition credentialService_comparePassword (plain hash : string) : M bool :=
  call (comparePassword (credentialService this) plain hash) (E_comparePassword plain hash).

Definition tokenService_generateAccessToken (payload : JwtPayload) : M string :=
  call (generateAccessToken (tokenService this) payload) (E_generateAccessToken payload).

Definition tokenService_generateRefreshToken (payload : JwtPayload) : M string :=
  call (generateRefreshToken (tokenService this) payload) (E_generateRefreshToken payload).

Definition tokenService_persistRefreshToken (user : User) : M RefreshToken :=
  call (persistRefreshToken (tokenService this) user) (E_persistRefreshToken user).

Definition tokenService_deleteRefreshToken (n : number) : M unit :=
  call (deleteRefreshToken (tokenService this) n) (E_deleteRefreshToken n).

Definition res_cookie (name value : string) (options : CookieOptions) : M unit :=
  emit (E_cookie name value options).
Definition res_clearCookie (name : string) : M unit := emit (E_clearCookie name).
Definition res_status (code : Z) : M unit := emit (E_status code).
Definition res_json (payload : JsValue) : M unit := emit (E_json payload).
Definition next (err : JsError) : M unit := emit (E_next err).
Definition logger_debug (message : string) (meta : JsValue) : M unit :=
  emit (E_log "debug" message meta).
Definition logger_info (message : string) (meta : JsValue) : M unit :=
  emit (E_log "info" message meta).

(** ** Pieces shared by the handlers *)

(** The claims object that [register] and [login] build from a user. *)
Definition payload_of_user (user : User) : JwtPayload :=
  {| sub := JS_String (User_id user);
     role := User_role user;
     tenant := match User_tenant user with
               | Some t => JS_String (Tenant_id t)
               | None => ""
               end;
     firstName := User_firstName user;
     lastName := User_lastName user;
     email := User_email user;
     id := None |}.

(** The claims object that [refresh] builds from [req.auth]. *)
Definition payload_of_auth (a : JwtPayload) : JwtPayload :=
  {| sub := sub a; role := role a; tenant := tenant a;
     firstName := firstName a; lastName := lastName a; email := email a;
     id := None |}.

Definition accessTokenCookie : CookieOptions :=
  {| domain := Config_MAIN_DOMAIN;
     sameSite := "strict";
     maxAge := (1000 * 60 * 60 * 24 * 1)%Z;
     httpOnly := true |}.

Definition refreshTokenCookie : CookieOptions :=
  {| domain := Config_MAIN_DOMAIN;
     sameSite := "strict";
     maxAge := (1000 * 60 * 60 * 24 * 365)%Z;
     httpOnly := true |}.

(** ** The handlers *)

Definition register (req : RegisterUserRequest) : M unit :=
  let result := validationResult req in
  if negb (isEmpty result) then
    res_status 400 ;;
    res_json (JsObject [("errors", JsArray (array result))])
  else
    let b := body req in
    logger_debug "New request to register a user"
      (JsObject [("firstName", JsString (body_firstName b));
                 ("lastName", JsString (body_lastName b));
                 ("email", JsString (body_email b));
                 ("password", JsString "******")]) ;;
    catch
      (user <- userService_create
                 {| data_firstName := body_firstName b;
                    data_lastName := body_lastName b;
                    data_email := body_email b;
                    data_password := body_password b;
                    data_role := Roles_CUSTOMER |} ;;
       logger_info "User has been registered"
         (JsObject [("id", JsNumber (User_id user))]) ;;
       let payload := payload_of_user user in
       accessToken <- tokenService_generateAccessToken payload ;;
       newRefreshToken <- tokenService_persistRefreshToken user ;;
       refreshToken <- tokenService_generateRefreshToken
                         (with_id payload (JS_String (RefreshToken_id newRefreshToken))) ;;
       res_cookie "accessToken" accessToken accessTokenCookie ;;
       res_cookie "refreshToken" refreshToken refreshTokenCookie ;;
       res_status 201 ;;
       res_json (JsObject [("id", JsNumber (User_id user))]))
      (fun err => next err).

Definition login (req : RegisterUserRequest) : M unit :=
  let result := validationResult req in
  if negb (isEmpty result) then
    res_status 400 ;;
    res_json (JsObject [("errors", JsArray (array result))])
  else
    let b := body req in
    logger_debug "New request to login a user"
      (JsObject [("email", JsString (body_email b));
                 ("password", JsString "******")]) ;;
    catch
      (found <- userService_findByEmailWithPassword (body_email b) ;;
       match found with
       | None => next (createHttpError 400 "Email or password does not match.")
       | Some user =>
           passwordMatch <- credentialService_comparePassword
                              (body_password b) (User_password user) ;;
           if negb passwordMatch then
             next (createHttpError 400 "Email or password does not match.")
           else
             let payload := payload_of_user user in
             accessToken <- tokenService_generateAccessToken payload ;;
             newRefreshToken <- tokenService_persistRefreshToken user ;;
             refreshToken <- tokenService_generateRefreshToken
                               (with_id payload
                                  (JS_String (RefreshToken_id newRefreshToken))) ;;
             res_cookie "accessToken" accessToken accessTokenCookie ;;
             res_cookie "refreshToken" refreshToken refreshTokenCookie ;;
             logger_info "User has been logged in"
               (JsObject [("id", JsNumber (User_id user))]) ;;
             res_json (JsObject [("id", JsNumber (User_id user))])
       end)
      (fun err => next err).

(** Own enumerable properties of a user object, in declaration order. *)
Definition User_props (user : User) : list (string * JsValue) :=
  [("id", JsNumber (User_id user));
   ("firstName", JsString (User_firstName user));
   ("lastName", JsString (User_lastName user));
   ("email", JsString (User_email user));
   ("password", JsString (User_password user));
   ("role", JsString (User_role user));
   ("tenant", match User_tenant user with
              | Some t => JsObject [("id", JsNumber (Tenant_id t))]
              | None => JsNull
              end)].

(** [{ ...user }] for [user : User | null]: spreading [null] copies nothing. *)
Definition spread (user : option User) : list (string * JsValue) :=
  match user with
  | Some u => User_props u
  | None => []
  end.

(** [{ ...props, key: v }]: an existing key keeps its place and takes the new
    value, a new key goes last. *)
Fixpoint set_prop (key : string) (v : JsValue) (props : list (string * JsValue))
  : list (string * JsValue) :=
  match props with
  | [] => [(key, v)]
  | (k, x) :: rest =>
      if String.eqb k key then (k, v) :: rest else (k, x) :: set_prop key v rest
  end.

Fixpoint get_prop (key : string) (props : list (string * JsValue)) : option JsValue :=
  match props with
  | [] => None
  | (k, x) :: rest => if String.eqb k key then Some x else get_prop key rest
  end.

(** What [JSON.stringify] keeps of an object's own properties: a property
    whose value is [undefined] is left out of the text that [res.json] sends. *)
Fixpoint JSON_props (props : list (string * JsValue)) : list (string * JsValue) :=
  match props with
  | [] => []
  | (_, JsUndefined) :: rest => JSON_props rest
  | (k, x) :: rest => (k, x) :: JSON_props rest
  end.

Definition self (req : AuthRequest) : M unit :=
  user <- userService_findById (JS_Number (Some (sub (auth req)))) ;;
  res_json (JsObject (set_prop "password" JsUndefined (spread user))).

Definition refresh (req : AuthRequest) : M unit :=
  catch
    (let payload := payload_of_auth (auth req) in
     accessToken <- tokenService_generateAccessToken payload ;;
     found <- userService_findById (JS_Number (Some (sub (auth req)))) ;;
     match found with
     | None => next (createHttpError 400 "User with the token could not find")
     | Some user =>
         newRefreshToken <- tokenService_persistRefreshToken user ;;
         tokenService_deleteRefreshToken (JS_Number (id (auth req))) ;;
         refreshToken <- tokenService_generateRefreshToken
                           (with_id payload
                              (JS_String (RefreshToken_id newRefreshToken))) ;;
         res_cookie "accessToken" accessToken accessTokenCookie ;;
         res_cookie "refreshToken" refreshToken refreshTokenCookie ;;
         logger_info "User has been logged in"
           (JsObject [("id", JsNumber (User_id user))]) ;;
         res_json (JsObject [("id", JsNumber (User_id user))])
     end)
    (fun err => next err).

Definition logout (req : AuthRequest) : M unit :=
  catch
    (tokenService_deleteRefreshToken (JS_Number (id (auth req))) ;;
     logger_info "Refresh token has been deleted"
       (JsObject [("id", match id (auth req) with
                         | Some v => JsString v
                         | None => JsUndefined
                         end)]) ;;
     logger_info "User has been logged out"
       (JsObject [("id", JsString (sub (auth req)))]) ;;
     res_clearCookie "accessToken" ;;
     res_clearCookie "refreshToken" ;;
     res_json (JsObject []))
    (fun err => next err).

(** ** Views of a trace *)

(** What the caller of a handler can see: the response and the error handed
    to [next]. *)
Definition is_response (e : Event) : bool :=
  match e with
  | E_cookie _ _ _ | E_clearCookie _ | E_status _ | E_json _ | E_next _ => true
  | _ => false
  end.

Definition response (t : list Event) : list Event := filter is_response t.

(** The operations on the refresh-token store. *)
Definition is_store_op (e : Event) : bool :=
  match e with
  | E_persistRefreshToken _ _ | E_deleteRefreshToken _ _ => true
  | _ => false
  end.

Definition store_ops (t : list Event) : list Event := filter is_store_op t.



(** The cookies set, the cookies cleared, the record ids whose deletion was
    requested, the payloads access tokens were requested for. *)
Fixpoint cookies (t : list Event) : list (string * string * CookieOptions) :=
  match t with
  | [] => []
  | E_cookie name value options :: rest => (name, value, options) :: cookies rest
  | _ :: rest => cookies rest
  end.

Fixpoint clearedCookies (t : list Event) : list string :=
  match t with
  | [] => []
  | E_clearCookie name :: rest => name :: clearedCookies rest
  | _ :: rest => clearedCookies rest
  end.

Fixpoint deletions (t : list Event) : list number :=
  match t with
  | [] => []
  | E_deleteRefreshToken n _ :: rest => n :: deletions rest
  | _ :: rest => deletions rest
  end.

Fixpoint accessTokenRequests (t : list Event) : list JwtPayload :=
  match t with
  | [] => []
  | E_generateAccessToken payload _ :: rest => payload :: accessTokenRequests rest
  | _ :: rest => accessTokenRequests rest
  end.

(** The error a service call ended with, when it threw. *)
Definition thrown (e : Event) : option JsError :=
  match e with
  | E_create _ (Thrown err)
  | E_findByEmailWithPassword _ (Thrown err)
  | E_findById _ (Thrown err)
  | E_comparePassword _ _ (Thrown err)
  | E_generateAccessToken _ (Thrown err)
  | E_generateRefreshToken _ (Thrown err)
  | E_persistRefreshToken _ (Thrown err)
  | E_deleteRefreshToken _ (Thrown err) => Some err
  | _ => None
  end.

(** What ends a request: a body sent with [res.json], or an error handed to
    [next]. *)
Definition is_terminal (e : Event) : bool :=
  match e with
  | E_json _ | E_next _ => true
  | _ => false
  end.

Definition terminals (t : list Event) : list Event := filter is_terminal t.

(** The steps that make or deliver a token. *)
Definition is_token_step (e : Event) : bool :=
  match e with
  | E_generateAccessToken _ _ | E_generateRefreshToken _ _
  | E_persistRefreshToken _ _ | E_cookie _ _ _ => true
  | _ => false
  end.

(** What was written to the log. *)
Fixpoint logs (t : list Event) : list (string * string * JsValue) :=
  match t with
  | [] => []
  | E_log level message meta :: rest => (level, message, meta) :: logs rest
  | _ :: rest => logs rest
  end.

End Model.


Arguments JsValue : clear implicits.
Arguments Tenant : clear implicits.
Arguments User : clear implicits.
Arguments RefreshToken : clear implicits.
Arguments RegisterUserRequest : clear implicits.
Arguments Event : clear implicits.
Arguments M : clear implicits.
Arguments UserService : clear implicits.
Arguments TokenService : clear implicits.
Arguments CredentialService : clear implicits.
Arguments AuthController : clear implicits.

(** ** An in-memory instance

    Services to run the handlers on concrete requests. *)

(** Numbers, as far as database ids need them: integers and NaN.  [Number]
    reads a decimal integer literal; any other text is NaN here. *)
Inductive num : Type :=
| NaN
| Int (z : Z).

Definition num_String (n : num) : string :=
  match n with
  | NaN => "NaN"
  | Int z => NilZero.string_of_int (Z.to_int z)
  end.

Definition num_Number (v : option string) : num :=
  match v with
  | None => NaN
  | Some s =>
      match NilZero.int_of_string s with
      | Some d => Int (Z.of_int d)
      | None => NaN
      end
  end.

Definition num_eqb (a b : num) : bool :=
  match a, b with
  | Int x, Int y => Z.eqb x y
  | _, _ => false
  end.

#[export] Instance mem_host : JSHost num :=
  {| JS_String := num_String;
     JS_Number := num_Number;
     Config_MAIN_DOMAIN := Some "localhost" |}.

(** Modelled from the spec: the services of [../services], which are not
    among the sources.  The instance follows the spec's contracts: the store
    hands out fresh ids and never reuses one, deleting an absent id succeeds,
    an unavailable store raises, and a token is a function of its claims. *)
Record Store : Type := {
  users : list (User num);
  refreshTokens : list (RefreshToken num);
  nextId : Z;
  clock : Z;
  available : bool
}.

Definition StoreUnavailable : JsError :=
  {| err_status := None; err_message := "store unavailable" |}.

Definition MS_IN_YEAR : Z := 1000 * 60 * 60 * 24 * 365.

Definition mem_create (data : UserData) (s : Store) : Outcome (User num) * Store :=
  if negb (available s) then (Thrown StoreUnavailable, s)
  else if existsb (fun u => String.eqb (User_email u) (data_email data)) (users s)
  then (Thrown (createHttpError 400 "Email is already exists!"), s)
  else
    let user := {| User_id := Int (nextId s);
                   User_firstName := data_firstName data;
                   User_lastName := data_lastName data;
                   User_email := data_email data;
                   User_password := "hashed:" ++ data_password data;
                   User_role := data_role data;
                   User_tenant := None |} in
    (Returned user,
     {| users := users s ++ [user]; refreshTokens := refreshTokens s;
        nextId := nextId s + 1; clock := clock s; available := available s |}).

Definition mem_findByEmailWithPassword (mail : string) (s : Store)
  : Outcome (option (User num)) * Store :=
  if negb (available s) then (Thrown StoreUnavailable, s)
  else (Returned (find (fun u => String.eqb (User_email u) mail) (users s)), s).

Definition mem_findById (n : num) (s : Store) : Outcome (option (User num)) * Store :=
  if negb (available s) then (Thrown StoreUnavailable, s)
  else (Returned (find (fun u => num_eqb (User_id u) n) (users s)), s).

Definition mem_comparePassword (plain hash : string) (s : Store) : Outcome bool * Store :=
  (Returned (String.eqb ("hashed:" ++ plain) hash), s).

Definition mem_sign (kind : string) (payload : JwtPayload) : string :=
  kind ++ "|" ++ sub payload ++ "|" ++ role payload ++ "|" ++ tenant payload
       ++ "|" ++ firstName payload ++ "|" ++ lastName payload
       ++ "|" ++ email payload
       ++ match id payload with Some v => "|" ++ v | None => "" end.

Definition mem_generateAccessToken (payload : JwtPayload) (s : Store)
  : Outcome string * Store :=
  (Returned (mem_sign "access" payload), s).

Definition mem_generateRefreshToken (payload : JwtPayload) (s : Store)
  : Outcome string * Store :=
  (Returned (mem_sign "refresh" payload), s).

Definition mem_persistRefreshToken (user : User num) (s : Store)
  : Outcome (RefreshToken num) * Store :=
  if negb (available s) then (Thrown StoreUnavailable, s)
  else
    let record := {| RefreshToken_id := Int (nextId s);
                     RefreshToken_user := user;
                     RefreshToken_expiresAt := Int (clock s + MS_IN_YEAR) |} in
    (Returned record,
     {| users := users s; refreshTokens := refreshTokens s ++ [record];
        nextId := nextId s + 1; clock := clock s; available := available s |}).

Definition mem_deleteRefreshToken (n : num) (s : Store) : Outcome unit * Store :=
  if negb (available s) then (Thrown StoreUnavailable, s)
  else
    (Returned tt,
     {| users := users s;
        refreshTokens :=
          filter (fun r => negb (num_eqb (RefreshToken_id r) n)) (refreshTokens s);
        nextId := nextId s; clock := clock s; available := available s |}).

Definition mem_controller : AuthController num Store :=
  {| userService :=
       {| create := mem_create;
          findByEmailWithPassword := mem_findByEmailWithPassword;
          findById := mem_findById |};
     tokenService :=
       {| generateAccessToken := mem_generateAccessToken;
          generateRefreshToken := mem_generateRefreshToken;
          persistRefreshToken := mem_persistRefreshToken;
          deleteRefreshToken := mem_deleteRefreshToken |};
     credentialService := {| comparePassword := mem_comparePassword |} |}.

(** Concrete data: one registered customer holding refresh-token record 2. *)
Definition alice : User num :=
  {| User_id := Int 1; User_firstName := "Alice"; User_lastName := "Ng";
     User_email := "a@b.com"; User_password := "hashed:p1";
     User_role := "customer"; User_tenant := None |}.

Definition alice_record : RefreshToken num :=
  {| RefreshToken_id := Int 2; RefreshToken_user := alice;
     RefreshToken_expiresAt := Int MS_IN_YEAR |}.

Definition empty_store : Store :=
  {| users := []; refreshTokens := []; nextId := 1; clock := 0; available := true |}.

Definition alice_store : Store :=
  {| users := [alice]; refreshTokens := [alice_record]; nextId := 3; clock := 0;
     available := true |}.

(** The same store after its database went away. *)
Definition down (s : Store) : Store :=
  {| users := users s; refreshTokens := refreshTokens s; nextId := nextId s;
     clock := clock s; available := false |}.

(** The same services, except that the token store refuses to create
    records; lookups still answer. *)
Definition mem_controller_no_persist : AuthController num Store :=
  {| userService := userService mem_controller;
     tokenService :=
       {| generateAccessToken := mem_generateAccessToken;
          generateRefreshToken := mem_generateRefreshToken;
          persistRefreshToken := fun _ s => (Thrown StoreUnavailable, s);
          deleteRefreshToken := mem_deleteRefreshToken |};
     credentialService := credentialService mem_controller |}.

Definition alice_form : RegisterUserRequest num :=
  {| body := {| body_firstName := "Alice"; body_lastName := "Ng";
                body_email := "a@b.com"; body_password := "p1" |};
     validation := [] |}.

Definition alice_wrong_password : RegisterUserRequest num :=
  {| body := {| body_firstName := ""; body_lastName := "";
                body_email := "a@b.com"; body_password := "nope" |};
     validation := [] |}.

(** Alice's refresh token, issued while her last name was still "Ng" and her
    role "customer". *)
Definition alice_auth : AuthRequest :=
  {| auth := {| sub := "1"; role := "customer"; tenant := "";
                firstName := "Alice"; lastName := "Ng"; email := "a@b.com";
                id := Some "2" |} |}.

(** A token whose subject is no longer in the store. *)
Definition ghost_auth : AuthRequest :=
  {| auth := {| sub := "7"; role := "customer"; tenant := "";
                firstName := "Gone"; lastName := "User"; email := "g@b.com";
                id := Some "9" |} |}.

(** The store after Alice was promoted and renamed. *)
Definition alice_promoted : User num :=
  {| User_id := Int 1; User_firstName := "Alice"; User_lastName := "Ngo";
     User_email := "a@b.com"; User_password := "hashed:p1";
     User_role := "admin"; User_tenant := Some {| Tenant_id := Int 5 |} |}.

Definition promoted_store : Store :=
  {| users := [alice_promoted]; refreshTokens := [alice_record]; nextId := 3;
     clock := 0; available := true |}.

(** The same services, except that the token store cannot delete records. *)
Definition mem_controller_no_delete : AuthController num Store :=
  {| userService := userService mem_controller;
     tokenService :=
       {| generateAccessToken := mem_generateAccessToken;
          generateRefreshToken := mem_generateRefreshToken;
          persistRefreshToken := mem_persistRefreshToken;
          deleteRefreshToken := fun _ s => (Thrown StoreUnavailable, s) |};
     credentialService := credentialService mem_controller |}.

(** A form that express-validator found an error in. *)
Definition invalid_form : RegisterUserRequest num :=
  {| body := {| body_firstName := "Alice"; body_lastName := "Ng";
                body_email := ""; body_password := "p1" |};
     validation := [JsObject [("msg", JsString "Email is required!")]] |}.

Definition SigningFailed : JsError :=
  createHttpError 500 "Error while reading private key".

(** The same services, except that signing a refresh token fails. *)
Definition mem_controller_no_sign : AuthController num Store :=
  {| userService := userService mem_controller;
     tokenService :=
       {| generateAccessToken := mem_generateAccessToken;
          generateRefreshToken := fun _ s => (Thrown SigningFailed, s);
          persistRefreshToken := mem_persistRefreshToken;
          deleteRefreshToken := mem_deleteRefreshToken |};
     credentialService := credentialService mem_controller |}.

(** ** Statements read off the specification *)

Section Statements.

Context {number : Type} {host : JSHost number}.


(** A run that answered with the identity's id: the success response of
    [register], [login] and [refresh]. *)
Definition answered_with_id (t : list (Event number)) : Prop :=
  exists n, In (E_json (JsObject [("id", JsNumber n)])) t.

(** Both tokens delivered, each with its cookie options. *)
Definition both_cookies_set (t : list (Event number)) : Prop :=
  exists accessToken refreshToken,
    cookies t = [("accessToken", accessToken, accessTokenCookie);
                 ("refreshToken", refreshToken, refreshTokenCookie)].


(** Exactly one deletion is requested, for the id claim of the presented
    token. *)
Definition deletes_presented_once (req : AuthRequest) (t : list (Event number)) : Prop :=
  deletions t = [JS_Number (id (auth req))].

Definition clears_both_cookies (t : list (Event number)) : Prop :=
  clearedCookies t = ["accessToken"; "refreshToken"].

End Statements.

(** * Properties *)

Ltac unfold_handler :=
  unfold register, login, refresh, logout, self,
    userService_create, userService_findByEmailWithPassword, userService_findById,
    credentialService_comparePassword,
    tokenService_generateAccessToken, tokenService_generateRefreshToken,
    tokenService_persistRefreshToken, tokenService_deleteRefreshToken,
    res_cookie, res_clearCookie, res_status, res_json, next,
    logger_debug, logger_info, call, emit, trace, outcome, final;
  cbn [bind ret catch raise Monad_M MonadExc_M];
  unfold M_bind, M_catch, M_ret, M_raise; cbn beta.

(** Splits on the innermost undecided test of the goal: the outcome of the
    next service call. *)
Ltac next_call :=
  match goal with
  | |- context [match ?x with _ => _ end] =>
      lazymatch x with
      | context [match _ with _ => _ end] => fail
      | _ => destruct x eqn:?
      end
  end.

Ltac run_handler := unfold_handler; repeat (next_call; cbn).

(** Reads a membership hypothesis over an explicit trace: one case per event
    that can match. *)
Ltac in_trace H :=
  cbn in H;
  repeat (destruct H as [H | H];
          [ try discriminate H; try (inversion H; subst; clear H) | ]);
  try contradiction.

Section Properties.

Context {number : Type} {host : JSHost number} {Σ : Type}.
Implicit Types (this : AuthController number Σ) (s : Σ).

(** C1.  The store operations of a refresh call are: none; or one create that
    failed; or one create that succeeded, followed by the deletion of the
    record named by the presented token's id claim.  The old record is thus
    deleted only after the new one was created, and never the other way
    round. *)
Theorem refresh_create_then_delete this (req : AuthRequest) s :
  let ops := store_ops (trace (refresh this req s)) in
  ops = [] \/
  (exists user e, ops = [E_persistRefreshToken user (Thrown e)]) \/
  (exists user record o,
      ops = [E_persistRefreshToken user (Returned record);
             E_deleteRefreshToken (JS_Number (id (auth req))) o]).
Proof.
  run_handler.
  all: eauto 6.
Qed.

(** C2.  A login request that passes validation gets the same answer when no
    identity has its email and when the identity is found but the password
    comparison returns false: the one error, status 400 and message "Email or
    password does not match.", handed to [next], and nothing else. *)
Theorem login_failure_indistinguishable this (req : RegisterUserRequest number)
    s1 s1' s2 s2' s2'' (user : User number) :
  isEmpty (validationResult req) = true ->
  findByEmailWithPassword (userService this) (body_email (body req)) s1
    = (Returned None, s1') ->
  findByEmailWithPassword (userService this) (body_email (body req)) s2
    = (Returned (Some user), s2') ->
  comparePassword (credentialService this) (body_password (body req))
    (User_password user) s2' = (Returned false, s2'') ->
  response (trace (login this req s1))
    = [E_next (createHttpError 400 "Email or password does not match.")] /\
  response (trace (login this req s2)) = response (trace (login this req s1)) /\
  outcome (login this req s1) = outcome (login this req s2).
Proof.
  intros Hvalid Hnone Hsome Hcompare.
  unfold_handler.
  rewrite Hvalid. cbn.
  rewrite Hnone, Hsome. cbn.
  rewrite Hcompare. cbn.
  repeat split.
Qed.

(** C3.  When persisting the refresh-token record throws in [register] or in
    [login], the thrown error is what [next] receives and it is the whole
    answer: no cookie is set, although the access token had been generated
    for that identity before. *)
Theorem persist_failure_aborts_issuance this (req : RegisterUserRequest number) s
    (user : User number) (e : JsError) :
  (In (E_persistRefreshToken user (Thrown e)) (trace (register this req s)) ->
   response (trace (register this req s)) = [E_next e] /\
   cookies (trace (register this req s)) = [] /\
   outcome (register this req s) = Returned tt /\
   exists accessToken,
     In (E_generateAccessToken (payload_of_user user) (Returned accessToken))
        (trace (register this req s))) /\
  (In (E_persistRefreshToken user (Thrown e)) (trace (login this req s)) ->
   response (trace (login this req s)) = [E_next e] /\
   cookies (trace (login this req s)) = [] /\
   outcome (login this req s) = Returned tt /\
   exists accessToken,
     In (E_generateAccessToken (payload_of_user user) (Returned accessToken))
        (trace (login this req s))).
Proof.
  split; run_handler; intros H; in_trace H; cbn; eauto 10.
Qed.



(** C6.  A registration that is answered with status 201 ran as follows: the
    identity was created from the form with role CUSTOMER; the access token
    was requested for claims whose [sub] is [String] of the new identity's id
    and whose [tenant] is the empty string without a tenant and [String] of
    the tenant's id with one; the refresh-token record was created for that
    same identity; and the access token delivered is the one generated. *)
Theorem register_issues_for_new_customer this (req : RegisterUserRequest number) s :
  In (E_status 201) (trace (register this req s)) ->
  exists user accessToken record refreshToken,
    let payload := payload_of_user user in
    let b := body req in
    trace (register this req s) =
      [E_log "debug" "New request to register a user"
         (JsObject [("firstName", JsString (body_firstName b));
                    ("lastName", JsString (body_lastName b));
                    ("email", JsString (body_email b));
                    ("password", JsString "******")]);
       E_create {| data_firstName := body_firstName b;
                   data_lastName := body_lastName b;
                   data_email := body_email b;
                   data_password := body_password b;
                   data_role := Roles_CUSTOMER |} (Returned user);
       E_log "info" "User has been registered"
         (JsObject [("id", JsNumber (User_id user))]);
       E_generateAccessToken payload (Returned accessToken);
       E_persistRefreshToken user (Returned record);
       E_generateRefreshToken
         (with_id payload (JS_String (RefreshToken_id record)))
         (Returned refreshToken);
       E_cookie "accessToken" accessToken accessTokenCookie;
       E_cookie "refreshToken" refreshToken refreshTokenCookie;
       E_status 201;
       E_json (JsObject [("id", JsNumber (User_id user))])] /\
    sub payload = JS_String (User_id user) /\
    (User_tenant user = None -> tenant payload = "") /\
    (forall t, User_tenant user = Some t -> tenant payload = JS_String (Tenant_id t)).
Proof.
  run_handler; intros H; in_trace H.
  do 4 eexists. cbn. split; [reflexivity | ].
  split; [reflexivity | ].
  split; intros; match goal with E : User_tenant _ = _ |- _ => rewrite E end; reflexivity.
Qed.

(** C7.  When the lookup of the identity in a refresh call returns none, the
    call ends there: its whole trace is the access-token request, the lookup
    and the error "User with the token could not find" (status 400) handed to
    [next].  No record is created or deleted and no cookie is set. *)
Theorem refresh_identity_not_found this (req : AuthRequest) s (n : number) :
  In (E_findById n (Returned None)) (trace (refresh this req s)) ->
  (exists accessToken,
     trace (refresh this req s) =
       [E_generateAccessToken (payload_of_auth (auth req)) (Returned accessToken);
        E_findById (JS_Number (Some (sub (auth req)))) (Returned None);
        E_next (createHttpError 400 "User with the token could not find")]) /\
  response (trace (refresh this req s))
    = [E_next (createHttpError 400 "User with the token could not find")] /\
  store_ops (trace (refresh this req s)) = [] /\
  cookies (trace (refresh this req s)) = [].
Proof.
  run_handler; intros H; in_trace H.
  repeat split. eexists; reflexivity.
Qed.

(** C8, as the code has it.  A refresh or logout call requests at most one
    deletion, and only for [Number] of the presented token's id claim.
    [logout] requests it in every call; [refresh] requests it exactly when
    its create succeeded.  [logout] clears both cookies when the deletion
    returns; when the deletion throws, the error goes to [next] and no cookie
    is cleared. *)
Theorem at_most_one_deletion this (req : AuthRequest) s :
  (deletions (trace (refresh this req s)) = [] \/
   deletes_presented_once req (trace (refresh this req s))) /\
  ((exists user record,
      In (E_persistRefreshToken user (Returned record)) (trace (refresh this req s)))
   <-> deletes_presented_once req (trace (refresh this req s))) /\
  deletes_presented_once req (trace (logout this req s)) /\
  (forall n, In (E_deleteRefreshToken n (Returned tt)) (trace (logout this req s)) ->
             clears_both_cookies (trace (logout this req s)) /\
             response (trace (logout this req s))
               = [E_clearCookie "accessToken"; E_clearCookie "refreshToken";
                  E_json (JsObject [])]) /\
  (forall n e, In (E_deleteRefreshToken n (Thrown e)) (trace (logout this req s)) ->
               clearedCookies (trace (logout this req s)) = [] /\
               response (trace (logout this req s)) = [E_next e]).
Proof.
  unfold deletes_presented_once, clears_both_cookies.
  split; [ | split; [ | split; [ | split ] ] ].
  - run_handler; auto.
  - run_handler; split.
    all: try (intros [user' [record' H]]; in_trace H; reflexivity).
    all: try (intros H; discriminate H).
    all: intros _; do 2 eexists; cbn; eauto 10.
  - run_handler; reflexivity.
  - run_handler; intros n H; in_trace H; split; reflexivity.
  - run_handler; intros n e' H; in_trace H; split; reflexivity.
Qed.

(** The four handlers with a [try]/[catch] hand every error to [next] and
    return. *)
Lemma handlers_never_reject this (req : RegisterUserRequest number)
    (areq : AuthRequest) s :
  outcome (register this req s) = Returned tt /\
  outcome (login this req s) = Returned tt /\
  outcome (refresh this areq s) = Returned tt /\
  outcome (logout this areq s) = Returned tt.
Proof.
  repeat split; run_handler; reflexivity.
Qed.

(** Cookies are set in pairs or not at all. *)
Lemma register_cookies this (req : RegisterUserRequest number) s :
  cookies (trace (register this req s)) = [] \/
  both_cookies_set (trace (register this req s)).
Proof. unfold both_cookies_set. run_handler; eauto. Qed.

Lemma login_cookies this (req : RegisterUserRequest number) s :
  cookies (trace (login this req s)) = [] \/
  both_cookies_set (trace (login this req s)).
Proof. unfold both_cookies_set. run_handler; eauto. Qed.

Lemma refresh_cookies this (req : AuthRequest) s :
  cookies (trace (refresh this req s)) = [] \/
  both_cookies_set (trace (refresh this req s)).
Proof. unfold both_cookies_set. run_handler; eauto. Qed.


(** Reading a property of what [JSON.stringify] keeps. *)
Lemma get_prop_absent (key : string) (props : list (string * JsValue number)) :
  ~ In key (map fst props) -> get_prop key (JSON_props props) = None.
Proof.
  induction props as [ | [k x] rest IH]; intros Hnot; [reflexivity | ].
  cbn in Hnot.
  assert (Hk : String.eqb k key = false) by (apply String.eqb_neq; tauto).
  assert (Hrest : get_prop key (JSON_props rest) = None) by (apply IH; tauto).
  destruct x; cbn; rewrite ?Hk; exact Hrest.
Qed.

(** Setting a property to [undefined] removes it from the text sent. *)
Lemma get_prop_set_undefined (key : string) (props : list (string * JsValue number)) :
  NoDup (map fst props) ->
  get_prop key (JSON_props (set_prop key JsUndefined props)) = None.
Proof.
  induction props as [ | [k x] rest IH]; intros Hnodup; [reflexivity | ].
  cbn in Hnodup. inversion Hnodup as [ | ? ? Hfresh Hrest]; subst.
  cbn. destruct (String.eqb_spec k key) as [-> | Hne].
  - cbn. now apply get_prop_absent.
  - assert (Hk : String.eqb k key = false) by now apply String.eqb_neq.
    destruct x; cbn; rewrite ?Hk; now apply IH.
Qed.

(** ... and leaves every other property as it was. *)
Lemma get_prop_set_other (key other : string) (props : list (string * JsValue number)) :
  other <> key ->
  get_prop other (JSON_props (set_prop key JsUndefined props))
    = get_prop other (JSON_props props).
Proof.
  intros Hother.
  induction props as [ | [k x] rest IH]; [reflexivity | ].
  cbn. destruct (String.eqb_spec k key) as [-> | Hne].
  - assert (Hk : String.eqb key other = false) by (apply String.eqb_neq; congruence).
    destruct x; cbn; rewrite ?Hk; reflexivity.
  - destruct x; cbn; rewrite ?IH; reflexivity.
Qed.

Lemma spread_NoDup (user : option (User number)) : NoDup (map fst (spread user)).
Proof.
  destruct user as [u | ]; cbn; [ | constructor].
  repeat (constructor; [cbn; intuition discriminate | ]).
  constructor.
Qed.

(** C10.  [self] looks the identity up by [Number] of the token's [sub] and
    answers with a copy of the identity whose [password] is [undefined]: the
    text sent has no [password] property, and every other property of the
    identity is sent as it is.  When the lookup throws, nothing is sent. *)
Theorem self_omits_password this (req : AuthRequest) s :
  exists found,
    trace (self this req s)
      = E_findById (JS_Number (Some (sub (auth req)))) found
        :: match found with
           | Returned user =>
               [E_json (JsObject (set_prop "password" JsUndefined (spread user)))]
           | Thrown _ => []
           end /\
    forall props,
      In (E_json (JsObject props)) (trace (self this req s)) ->
      get_prop "password" (JSON_props props) = None /\
      exists user,
        found = Returned user /\
        forall key, key <> "password" ->
                    get_prop key (JSON_props props)
                      = get_prop key (JSON_props (spread user)).
Proof.
  unfold_handler.
  destruct (findById (userService this) (JS_Number (Some (sub (auth req)))) s)
    as [[user | e] s1]; cbn.
  - exists (Returned user). split; [reflexivity | ].
    intros props H; in_trace H. split.
    + apply get_prop_set_undefined, spread_NoDup.
    + exists user. split; [reflexivity | ].
      intros key Hkey. now apply get_prop_set_other.
  - exists (Thrown e). split; [reflexivity | ].
    intros props H; in_trace H.
Qed.

End Properties.

(** * Further properties of the handlers *)

(** Reads a membership hypothesis whose event is not known yet. *)
Ltac each_event H :=
  cbn in H;
  repeat (destruct H as [H | H]; [ subst | ]);
  try contradiction.

(** Points at an event of an explicit trace. *)
Ltac pick_event := cbn; repeat (first [left; reflexivity | right]).

(** Splits an explicit trace before its last two events. *)
Ltac before_last_two :=
  first [ exists [] ; reflexivity
        | eexists [_] ; reflexivity
        | eexists [_; _] ; reflexivity
        | eexists [_; _; _] ; reflexivity
        | eexists [_; _; _; _] ; reflexivity
        | eexists [_; _; _; _; _] ; reflexivity
        | eexists [_; _; _; _; _; _] ; reflexivity ].

Section MoreStatements.

Context {number : Type} {host : JSHost number}.

(** A service call that threw is the last thing a run did before it handed
    that very error to [next], and the error is all the caller gets. *)
Definition error_forwarded (t : list (Event number)) : Prop :=
  forall ev e,
    In ev t -> thrown ev = Some e ->
    response t = [E_next e] /\ exists pre, t = (pre ++ [ev; E_next e])%list.

(** Every cookie of a run is one of the two token cookies, carries the value
    a generate call of the same run returned, and has that token's options. *)
Definition cookies_carry_generated_tokens (t : list (Event number)) : Prop :=
  forall name value options,
    In (E_cookie name value options) t ->
    (name = "accessToken" /\ options = accessTokenCookie /\
     exists payload, In (E_generateAccessToken payload (Returned value)) t) \/
    (name = "refreshToken" /\ options = refreshTokenCookie /\
     exists payload, In (E_generateRefreshToken payload (Returned value)) t).

(** The refresh token of a run is requested for the claims its access token
    was generated for (and the record id besides). *)
Definition refresh_token_shares_claims (t : list (Event number)) : Prop :=
  forall payload o,
    In (E_generateRefreshToken payload o) t ->
    accessTokenRequests t = [payload_of_auth payload] /\
    exists accessToken,
      In (E_generateAccessToken (payload_of_auth payload) (Returned accessToken)) t.

(** A refresh token that could not be signed leaves its record created and
    nothing delivered: the store operations of the run are the create and the
    deletions [removed], all before the signing, and after the signing comes
    only [next]. *)
Definition unsigned_record_stays (removed : list number)
    (t : list (Event number)) : Prop :=
  forall payload e,
    In (E_generateRefreshToken payload (Thrown e)) t ->
    (exists user record,
        store_ops t
          = E_persistRefreshToken user (Returned record)
            :: map (fun n => E_deleteRefreshToken n (Returned tt)) removed /\
        id payload = Some (JS_String (RefreshToken_id record))) /\
    (exists pre,
        t = (pre ++ [E_generateRefreshToken payload (Thrown e); E_next e])%list) /\
    cookies t = [] /\
    response t = [E_next e].

(** What a token step of [login] must look like when the tokens are those of
    [user]: claims built from [user], a record created for [user], a refresh
    token for those claims and the id of a record created for [user], and
    cookies that hold the tokens generated for them. *)
Definition token_step_for (user : User number) (t : list (Event number))
    (ev : Event number) : Prop :=
  match ev with
  | E_generateAccessToken payload _ => payload = payload_of_user user
  | E_persistRefreshToken owner _ => owner = user
  | E_generateRefreshToken payload _ =>
      exists record,
        In (E_persistRefreshToken user (Returned record)) t /\
        payload = with_id (payload_of_user user) (JS_String (RefreshToken_id record))
  | E_cookie name value _ =>
      (name = "accessToken" /\
       In (E_generateAccessToken (payload_of_user user) (Returned value)) t) \/
      (name = "refreshToken" /\
       exists record,
         In (E_generateRefreshToken
               (with_id (payload_of_user user) (JS_String (RefreshToken_id record)))
               (Returned value)) t)
  | _ => True
  end.

(** The identity a run created, and the identity a run found by email. *)
Fixpoint created_user (t : list (Event number)) : option (User number) :=
  match t with
  | [] => None
  | E_create _ (Returned user) :: _ => Some user
  | _ :: rest => created_user rest
  end.

Fixpoint found_user (t : list (Event number)) : option (User number) :=
  match t with
  | [] => None
  | E_findByEmailWithPassword _ (Returned (Some user)) :: _ => Some user
  | _ :: rest => found_user rest
  end.

(** The identity a login delivered tokens to: the one found, once cookies are
    set. *)
Definition logged_in_user (t : list (Event number)) : option (User number) :=
  match cookies t with
  | [] => None
  | _ :: _ => found_user t
  end.

(** The log of a registration, from what goes into it: three fields of the
    form and the identity created, if one was. *)
Definition register_log (first last mail : string) (created : option (User number))
  : list (string * string * JsValue number) :=
  ("debug", "New request to register a user",
   JsObject [("firstName", JsString first);
             ("lastName", JsString last);
             ("email", JsString mail);
             ("password", JsString "******")])
  :: match created with
     | Some user =>
         [("info", "User has been registered",
           JsObject [("id", JsNumber (User_id user))])]
     | None => []
     end.

(** The log of a login, from what goes into it: the form's email and the
    identity logged in, if one was. *)
Definition login_log (mail : string) (loggedIn : option (User number))
  : list (string * string * JsValue number) :=
  ("debug", "New request to login a user",
   JsObject [("email", JsString mail);
             ("password", JsString "******")])
  :: match loggedIn with
     | Some user =>
         [("info", "User has been logged in",
           JsObject [("id", JsNumber (User_id user))])]
     | None => []
     end.

End MoreStatements.

Section MoreProperties.

Context {number : Type} {host : JSHost number} {Σ : Type}.
Implicit Types (this : AuthController number Σ) (s : Σ).

(** X1.  A register or login request with validation errors is answered with
    status 400 and the list of errors, and that is the whole run: no service
    is called, nothing is logged, the collaborators' state is untouched. *)
Theorem invalid_request_answered_at_once this (req : RegisterUserRequest number) s :
  isEmpty (validationResult req) = false ->
  register this req s
    = (Returned tt, s,
       [E_status 400;
        E_json (JsObject [("errors", JsArray (array (validationResult req)))])]) /\
  login this req s
    = (Returned tt, s,
       [E_status 400;
        E_json (JsObject [("errors", JsArray (array (validationResult req)))])]).
Proof.
  intros Hinvalid. unfold_handler. rewrite Hinvalid. cbn. split; reflexivity.
Qed.

(** X2.  In register, login, refresh and logout, whatever service call throws
    is the last call of the run: the next and last event hands that same error
    to [next], and the caller gets nothing else (no cookie, no body). *)
Theorem thrown_errors_reach_next this (req : RegisterUserRequest number)
    (areq : AuthRequest) s :
  error_forwarded (trace (register this req s)) /\
  error_forwarded (trace (login this req s)) /\
  error_forwarded (trace (refresh this areq s)) /\
  error_forwarded (trace (logout this areq s)).
Proof.
  unfold error_forwarded.
  split; [ | split; [ | split ] ]; run_handler; intros ev e' Hin Hthrown.
  all: each_event Hin; cbn in Hthrown; try discriminate Hthrown.
  all: inversion Hthrown; subst; clear Hthrown.
  all: split; [reflexivity | before_last_two].
Qed.

(** X3.  A run of register, login, refresh or logout ends the request exactly
    once: it either sends one body or hands one error to [next], never both
    and never twice.  A run of self sends at most one body. *)
Theorem request_ended_once this (req : RegisterUserRequest number)
    (areq : AuthRequest) s :
  (exists ev, terminals (trace (register this req s)) = [ev]) /\
  (exists ev, terminals (trace (login this req s)) = [ev]) /\
  (exists ev, terminals (trace (refresh this areq s)) = [ev]) /\
  (exists ev, terminals (trace (logout this areq s)) = [ev]) /\
  (length (terminals (trace (self this areq s))) <= 1)%nat.
Proof.
  repeat split; run_handler; eauto; repeat constructor.
Qed.

(** X4.  login makes or delivers a token only for the identity it found by
    the form's email, after the credential service matched the form's
    password against that identity's stored one.  A run either has no token
    step, or it starts with the debug entry, that lookup and a comparison
    returning true, and every token step after them is for that identity: the
    claims are built from it, the record is created for it, the refresh token
    carries those claims and that record's id, and the cookies hold the tokens
    generated for them. *)
Theorem login_tokens_need_matching_password this (req : RegisterUserRequest number) s :
  filter is_token_step (trace (login this req s)) = [] \/
  exists user entry rest,
    trace (login this req s)
      = E_log "debug" "New request to login a user" entry
        :: E_findByEmailWithPassword (body_email (body req)) (Returned (Some user))
        :: E_comparePassword (body_password (body req)) (User_password user)
             (Returned true)
        :: rest /\
    forall ev,
      In ev rest -> is_token_step ev = true ->
      token_step_for user (trace (login this req s)) ev.
Proof.
  run_handler.
  all: try (left; reflexivity).
  all: match goal with
       | Hnot : negb ?matched = false |- _ =>
           destruct matched; [clear Hnot | discriminate Hnot]
       end.
  all: right; do 3 eexists; split; [reflexivity | ].
  all: intros ev Hin Hstep; each_event Hin; cbn in Hstep; try discriminate Hstep.
  all: cbn.
  all: try reflexivity.
  all: try (eexists; split; [pick_event | reflexivity]).
  all: try (left; split; [reflexivity | pick_event]).
  all: right; split; [reflexivity | eexists; pick_event].
Qed.

(** X5.  What register and login write to the log is a function of the
    form's names and email and of the identity concerned; the form's password
    is not an input.  A request with validation errors logs nothing.
    Otherwise register logs the debug entry, whose password property is the
    mask "******", and then, when create returned, the info entry with the id
    of the identity created; login logs its debug entry and then, once the
    cookies are set, the info entry with the id of the identity found. *)
Theorem password_is_masked_in_logs this (req : RegisterUserRequest number) s :
  let b := body req in
  logs (trace (register this req s))
    = (if isEmpty (validationResult req)
       then register_log (body_firstName b) (body_lastName b) (body_email b)
              (created_user (trace (register this req s)))
       else []) /\
  logs (trace (login this req s))
    = (if isEmpty (validationResult req)
       then login_log (body_email b) (logged_in_user (trace (login this req s)))
       else []).
Proof.
  cbv zeta. unfold logged_in_user.
  destruct (isEmpty (validationResult req)) eqn:Hvalid.
  - split; unfold_handler; rewrite Hvalid; cbn; repeat (next_call; cbn); reflexivity.
  - split; unfold_handler; rewrite Hvalid; reflexivity.
Qed.

(** X6.  In register, login and refresh a cookie is never made up: each
    cookie set is "accessToken" or "refreshToken", its value is what the
    matching generate call of that run returned, and its options are that
    token's. *)
Theorem cookies_hold_generated_tokens this (req : RegisterUserRequest number)
    (areq : AuthRequest) s :
  cookies_carry_generated_tokens (trace (register this req s)) /\
  cookies_carry_generated_tokens (trace (login this req s)) /\
  cookies_carry_generated_tokens (trace (refresh this areq s)).
Proof.
  unfold cookies_carry_generated_tokens.
  split; [ | split ]; run_handler; intros name' value' options' H; in_trace H.
  all: try (left; repeat split; eexists; pick_event).
  all: right; repeat split; eexists; pick_event.
Qed.

(** X7.  In register, login and refresh the refresh token is requested for the
    same six claims as the one access token of that run, which had been
    generated successfully before. *)
Theorem refresh_token_claims_are_access_claims this (req : RegisterUserRequest number)
    (areq : AuthRequest) s :
  refresh_token_shares_claims (trace (register this req s)) /\
  refresh_token_shares_claims (trace (login this req s)) /\
  refresh_token_shares_claims (trace (refresh this areq s)).
Proof.
  unfold refresh_token_shares_claims.
  split; [ | split ]; run_handler; intros payload' o' H; in_trace H.
  all: split; [reflexivity | eexists; pick_event].
Qed.

(** X8.  self has no error boundary: when its lookup throws, the handler
    rejects with that error after the lookup alone, so nothing is sent and
    [next] is not called. *)
Theorem self_rejects_when_lookup_throws this (req : AuthRequest) s s' (e : JsError) :
  findById (userService this) (JS_Number (Some (sub (auth req)))) s = (Thrown e, s') ->
  self this req s
    = (Thrown e, s', [E_findById (JS_Number (Some (sub (auth req)))) (Thrown e)]).
Proof.
  intros Hthrows. unfold_handler. rewrite Hthrows. reflexivity.
Qed.

(** X9.  When self finds no identity it still answers, without an error and
    without a status: the body it passes has the single property [password],
    which is [undefined], so the text sent is the empty object. *)
Theorem self_answers_empty_for_unknown_identity this (req : AuthRequest) s s' :
  findById (userService this) (JS_Number (Some (sub (auth req)))) s
    = (Returned None, s') ->
  self this req s
    = (Returned tt, s',
       [E_findById (JS_Number (Some (sub (auth req)))) (Returned None);
        E_json (JsObject [("password", JsUndefined)])]) /\
  JSON_props [("password", @JsUndefined number)] = [].
Proof.
  intros Hnone. unfold_handler. rewrite Hnone. split; reflexivity.
Qed.

(** X10.  A login that answers with the identity's id ran as follows: lookup
    by the form's email, comparison of the form's password with the stored one
    returning true, access token for the claims of the identity found, record
    created for that identity, refresh token for the same claims and the
    record's id, both cookies, and the id of that identity as the body; no
    status is set. *)
Theorem login_success_trace this (req : RegisterUserRequest number) s :
  answered_with_id (trace (login this req s)) ->
  exists user accessToken record refreshToken,
    let payload := payload_of_user user in
    let b := body req in
    trace (login this req s) =
      [E_log "debug" "New request to login a user"
         (JsObject [("email", JsString (body_email b));
                    ("password", JsString "******")]);
       E_findByEmailWithPassword (body_email b) (Returned (Some user));
       E_comparePassword (body_password b) (User_password user) (Returned true);
       E_generateAccessToken payload (Returned accessToken);
       E_persistRefreshToken user (Returned record);
       E_generateRefreshToken
         (with_id payload (JS_String (RefreshToken_id record)))
         (Returned refreshToken);
       E_cookie "accessToken" accessToken accessTokenCookie;
       E_cookie "refreshToken" refreshToken refreshTokenCookie;
       E_log "info" "User has been logged in"
         (JsObject [("id", JsNumber (User_id user))]);
       E_json (JsObject [("id", JsNumber (User_id user))])].
Proof.
  unfold answered_with_id.
  run_handler; intros [n H]; in_trace H.
  match goal with
  | Hnot : negb ?matched = false |- _ =>
      destruct matched; [clear Hnot | discriminate Hnot]
  end.
  do 4 eexists. reflexivity.
Qed.

(** X11.  A refresh that answers with an id ran as follows: access token for
    the presented claims, lookup by [Number] of [sub], record created for the
    identity found, deletion of the presented record returning, refresh token
    for the presented claims and the new record's id, both cookies, and the
    id of the identity found (not the token's [sub]) as the body. *)
Theorem refresh_success_trace this (req : AuthRequest) s :
  answered_with_id (trace (refresh this req s)) ->
  exists user accessToken record refreshToken,
    let payload := payload_of_auth (auth req) in
    trace (refresh this req s) =
      [E_generateAccessToken payload (Returned accessToken);
       E_findById (JS_Number (Some (sub (auth req)))) (Returned (Some user));
       E_persistRefreshToken user (Returned record);
       E_deleteRefreshToken (JS_Number (id (auth req))) (Returned tt);
       E_generateRefreshToken
         (with_id payload (JS_String (RefreshToken_id record)))
         (Returned refreshToken);
       E_cookie "accessToken" accessToken accessTokenCookie;
       E_cookie "refreshToken" refreshToken refreshTokenCookie;
       E_log "info" "User has been logged in"
         (JsObject [("id", JsNumber (User_id user))]);
       E_json (JsObject [("id", JsNumber (User_id user))])].
Proof.
  unfold answered_with_id.
  run_handler; intros [n H]; in_trace H.
  match goal with u : unit |- _ => destruct u end.
  do 4 eexists. reflexivity.
Qed.

(** X12.  When creating the identity throws during a valid registration (a
    duplicate email, say), the run is the debug entry with the masked
    password, the create call with the form's four fields and role CUSTOMER,
    and that error handed to [next]; the state is the one create left.  No
    token is generated, no record is created and no cookie is set. *)
Theorem register_stops_when_create_throws this (req : RegisterUserRequest number)
    s s' (e : JsError) :
  let b := body req in
  let data := {| data_firstName := body_firstName b;
                 data_lastName := body_lastName b;
                 data_email := body_email b;
                 data_password := body_password b;
                 data_role := Roles_CUSTOMER |} in
  isEmpty (validationResult req) = true ->
  create (userService this) data s = (Thrown e, s') ->
  register this req s
    = (Returned tt, s',
       [E_log "debug" "New request to register a user"
          (JsObject [("firstName", JsString (body_firstName b));
                     ("lastName", JsString (body_lastName b));
                     ("email", JsString (body_email b));
                     ("password", JsString "******")]);
        E_create data (Thrown e);
        E_next e]) /\
  filter is_token_step (trace (register this req s)) = [] /\
  response (trace (register this req s)) = [E_next e].
Proof.
  cbv zeta. intros Hvalid Hthrows. unfold_handler. rewrite Hvalid. cbn.
  rewrite Hthrows. cbn. repeat split.
Qed.

(** X13.  When signing the refresh token throws in register, login or
    refresh, the record whose id the token was to carry has been created in
    that run and is not removed: the signing is followed by [next] with the
    error and by nothing else, no cookie is set, and the store operations of
    the run are the create alone in register and login, and the create
    followed by the deletion of the presented record in refresh. *)
Theorem record_outlives_failed_signing this (req : RegisterUserRequest number)
    (areq : AuthRequest) s :
  unsigned_record_stays [] (trace (register this req s)) /\
  unsigned_record_stays [] (trace (login this req s)) /\
  unsigned_record_stays [JS_Number (id (auth areq))] (trace (refresh this areq s)).
Proof.
  unfold unsigned_record_stays.
  split; [ | split ]; run_handler; intros payload' e' H; in_trace H.
  all: repeat match goal with done : unit |- _ => destruct done end.
  all: split; [do 2 eexists; split; reflexivity | ].
  all: split; [before_last_two | split; reflexivity].
Qed.

(** X14.  When the deletion of the presented record throws in refresh, the
    new record has been created, no refresh token is signed for it and no
    cookie is set: the error goes to [next]. *)
Theorem refresh_deletion_failure this (req : AuthRequest) s (n : number) (e : JsError) :
  In (E_deleteRefreshToken n (Thrown e)) (trace (refresh this req s)) ->
  exists accessToken user record,
    trace (refresh this req s) =
      [E_generateAccessToken (payload_of_auth (auth req)) (Returned accessToken);
       E_findById (JS_Number (Some (sub (auth req)))) (Returned (Some user));
       E_persistRefreshToken user (Returned record);
       E_deleteRefreshToken (JS_Number (id (auth req))) (Thrown e);
       E_next e].
Proof.
  run_handler; intros H; in_trace H.
  do 3 eexists. reflexivity.
Qed.

End MoreProperties.

(** * The properties at concrete requests *)

(** Finds an event in an explicit trace. *)
Ltac find_event := vm_compute; repeat (first [left; reflexivity | right]).

(** C2 on the in-memory instance: a wrong password for Alice and the same
    form against an empty store. *)
Lemma login_failure_indistinguishable_witness :
  isEmpty (validationResult alice_wrong_password) = true /\
  response (trace (login mem_controller alice_wrong_password empty_store))
    = [E_next (createHttpError 400 "Email or password does not match.")] /\
  response (trace (login mem_controller alice_wrong_password alice_store))
    = response (trace (login mem_controller alice_wrong_password empty_store)) /\
  outcome (login mem_controller alice_wrong_password empty_store)
    = outcome (login mem_controller alice_wrong_password alice_store).
Proof.
  split; [reflexivity | ].
  apply (@login_failure_indistinguishable num mem_host Store mem_controller
           alice_wrong_password empty_store empty_store alice_store alice_store
           alice_store alice); reflexivity.
Defined.

(** C3 on the in-memory instance, with a token store that refuses writes. *)
Lemma persist_failure_aborts_issuance_witness :
  (response (trace (register mem_controller_no_persist alice_form empty_store))
     = [E_next StoreUnavailable] /\
   cookies (trace (register mem_controller_no_persist alice_form empty_store)) = []) /\
  (response (trace (login mem_controller_no_persist alice_form alice_store))
     = [E_next StoreUnavailable] /\
   cookies (trace (login mem_controller_no_persist alice_form alice_store)) = []).
Proof.
  split.
  - destruct (proj1 (persist_failure_aborts_issuance mem_controller_no_persist
                       alice_form empty_store alice StoreUnavailable))
      as [Hresponse [Hcookies _]]; [find_event | ].
    split; assumption.
  - destruct (proj2 (persist_failure_aborts_issuance mem_controller_no_persist
                       alice_form alice_store alice StoreUnavailable))
      as [Hresponse [Hcookies _]]; [find_event | ].
    split; assumption.
Defined.



(** C6 on the in-memory instance: Alice registers against an empty store. *)
Lemma register_issues_for_new_customer_witness :
  In (E_status 201) (trace (register mem_controller alice_form empty_store)) /\
  exists accessToken record,
    In (E_create {| data_firstName := "Alice"; data_lastName := "Ng";
                    data_email := "a@b.com"; data_password := "p1";
                    data_role := Roles_CUSTOMER |} (Returned alice))
       (trace (register mem_controller alice_form empty_store)) /\
    In (E_generateAccessToken (payload_of_user alice) (Returned accessToken))
       (trace (register mem_controller alice_form empty_store)) /\
    In (E_persistRefreshToken alice (Returned record))
       (trace (register mem_controller alice_form empty_store)) /\
    sub (payload_of_user alice) = "1" /\
    tenant (payload_of_user alice) = "".
Proof.
  assert (Hok : In (E_status 201) (trace (register mem_controller alice_form empty_store)))
    by find_event.
  split; [exact Hok | ].
  destruct (register_issues_for_new_customer mem_controller alice_form empty_store Hok)
    as [user [accessToken [record [refreshToken [Htrace _]]]]].
  cbv zeta in Htrace.
  assert (Huser : user = alice).
  { assert (Hsecond : nth_error (trace (register mem_controller alice_form empty_store)) 1
                      = Some (E_create {| data_firstName := "Alice"; data_lastName := "Ng";
                                          data_email := "a@b.com"; data_password := "p1";
                                          data_role := Roles_CUSTOMER |} (Returned alice)))
      by reflexivity.
    rewrite Htrace in Hsecond. cbn in Hsecond. now inversion Hsecond. }
  subst user.
  exists accessToken, record. rewrite Htrace.
  repeat split; cbn; auto 10.
Defined.

(** C7 on the in-memory instance: a token whose subject is not in the store. *)
Lemma refresh_identity_not_found_witness :
  In (E_findById (Int 7) (Returned None))
     (trace (refresh mem_controller ghost_auth alice_store)) /\
  response (trace (refresh mem_controller ghost_auth alice_store))
    = [E_next (createHttpError 400 "User with the token could not find")] /\
  store_ops (trace (refresh mem_controller ghost_auth alice_store)) = [] /\
  cookies (trace (refresh mem_controller ghost_auth alice_store)) = [].
Proof.
  assert (Hnone : In (E_findById (Int 7) (Returned None))
                     (trace (refresh mem_controller ghost_auth alice_store)))
    by find_event.
  split; [exact Hnone | ].
  exact (proj2 (refresh_identity_not_found mem_controller ghost_auth alice_store
                  (Int 7) Hnone)).
Defined.

(** C8 fails as stated: a refresh call for a subject that is gone requests no
    deletion, and a logout whose deletion throws clears no cookie. *)
Lemma deletion_not_in_every_call :
  ~ deletes_presented_once ghost_auth
      (trace (refresh mem_controller ghost_auth alice_store)) /\
  ~ clears_both_cookies (trace (logout mem_controller alice_auth (down alice_store))).
Proof.
  split; intros H; vm_compute in H; discriminate H.
Qed.

(** C8 on the in-memory instance: Alice refreshes, then logs out. *)
Lemma at_most_one_deletion_witness :
  deletions (trace (refresh mem_controller alice_auth alice_store)) = [Int 2] /\
  deletions (trace (logout mem_controller alice_auth alice_store)) = [Int 2] /\
  clears_both_cookies (trace (logout mem_controller alice_auth alice_store)).
Proof.
  destruct (at_most_one_deletion mem_controller alice_auth alice_store)
    as [_ [[Hrefresh _] [Hlogout [Hcleared _]]]].
  split; [ | split].
  - apply Hrefresh. exists alice. eexists. find_event.
  - exact Hlogout.
  - apply (Hcleared (Int 2)). find_event.
Defined.


(** C10 on the in-memory instance: Alice asks for herself.  The stored hash is
    a property of the identity that the lookup returns, and it is not in what
    is sent; her email is. *)
Lemma self_omits_password_witness :
  get_prop "password" (JSON_props (spread (Some alice)))
    = Some (JsString "hashed:p1") /\
  get_prop "password"
    (JSON_props (set_prop "password" JsUndefined (spread (Some alice)))) = None /\
  get_prop "email"
    (JSON_props (set_prop "password" JsUndefined (spread (Some alice))))
    = Some (JsString "a@b.com").
Proof.
  split; [reflexivity | ].
  destruct (self_omits_password mem_controller alice_auth alice_store)
    as [found [_ Hsent]].
  destruct (Hsent (set_prop "password" JsUndefined (spread (Some alice))))
    as [Hpassword [user [_ Hothers]]]; [find_event | ].
  split; [exact Hpassword | reflexivity].
Defined.

(** * The further properties at concrete requests *)

(** X1 on the in-memory instance: a form without an email. *)
Lemma invalid_request_answered_at_once_witness :
  isEmpty (validationResult invalid_form) = false /\
  trace (register mem_controller invalid_form alice_store)
    = [E_status 400;
       E_json (JsObject [("errors",
                          JsArray [JsObject [("msg", JsString "Email is required!")]])])] /\
  final (login mem_controller invalid_form alice_store) = alice_store.
Proof.
  assert (Hinvalid : isEmpty (validationResult invalid_form) = false) by reflexivity.
  destruct (invalid_request_answered_at_once mem_controller invalid_form alice_store
              Hinvalid) as [Hregister Hlogin].
  split; [exact Hinvalid | ].
  rewrite Hregister, Hlogin. split; reflexivity.
Defined.

(** X2 on the in-memory instance: Alice registers a second time and the
    duplicate-email error of the user service reaches [next]. *)
Lemma thrown_errors_reach_next_witness :
  response (trace (register mem_controller alice_form alice_store))
    = [E_next (createHttpError 400 "Email is already exists!")].
Proof.
  destruct (thrown_errors_reach_next mem_controller alice_form alice_auth alice_store)
    as [Hregister _].
  refine (proj1 (Hregister
                   (E_create {| data_firstName := "Alice"; data_lastName := "Ng";
                                data_email := "a@b.com"; data_password := "p1";
                                data_role := Roles_CUSTOMER |}
                      (Thrown (createHttpError 400 "Email is already exists!")))
                   (createHttpError 400 "Email is already exists!") _ _));
    [find_event | reflexivity].
Defined.

(** X4 on the in-memory instance: the access-token cookie of Alice's login
    holds the token generated for the claims of the identity found. *)
Lemma login_tokens_need_matching_password_witness :
  exists user : User num,
    In (E_findByEmailWithPassword "a@b.com" (Returned (Some user)))
       (trace (login mem_controller alice_form alice_store)) /\
    token_step_for user (trace (login mem_controller alice_form alice_store))
      (E_cookie "accessToken" "access|1|customer||Alice|Ng|a@b.com" accessTokenCookie).
Proof.
  destruct (login_tokens_need_matching_password mem_controller alice_form alice_store)
    as [Hnone | [user [entry [rest [Htrace Hsteps]]]]];
    [vm_compute in Hnone; discriminate Hnone | ].
  assert (Hrest : rest = skipn 3 (trace (login mem_controller alice_form alice_store)))
    by (rewrite Htrace; reflexivity).
  exists user. split.
  - rewrite Htrace. right. left. reflexivity.
  - apply Hsteps; [ | reflexivity].
    rewrite Hrest. find_event.
Defined.

(** X6 on the in-memory instance: the refresh-token cookie of Alice's
    registration holds the token that was signed for record 2. *)
Lemma cookies_hold_generated_tokens_witness :
  exists payload,
    In (E_generateRefreshToken payload
          (Returned "refresh|1|customer||Alice|Ng|a@b.com|2"))
       (trace (register mem_controller alice_form empty_store)).
Proof.
  destruct (cookies_hold_generated_tokens mem_controller alice_form alice_auth
              empty_store) as [Hregister _].
  destruct (Hregister "refreshToken" "refresh|1|customer||Alice|Ng|a@b.com|2"
              refreshTokenCookie) as [[Hname _] | [_ [_ Hgenerated]]];
    [find_event | discriminate Hname | exact Hgenerated].
Defined.

(** X7 on the in-memory instance: Alice's refresh after her promotion. *)
Lemma refresh_token_claims_are_access_claims_witness :
  accessTokenRequests (trace (refresh mem_controller alice_auth promoted_store))
    = [payload_of_auth (auth alice_auth)].
Proof.
  destruct (refresh_token_claims_are_access_claims mem_controller alice_form alice_auth
              promoted_store) as [_ [_ Hrefresh]].
  refine (proj1 (Hrefresh (with_id (payload_of_auth (auth alice_auth)) "3")
                   (Returned "refresh|1|customer||Alice|Ng|a@b.com|3") _)).
  find_event.
Defined.

(** X8 on the in-memory instance: Alice asks for herself while the store is
    away. *)
Lemma self_rejects_when_lookup_throws_witness :
  outcome (self mem_controller alice_auth (down alice_store)) = Thrown StoreUnavailable /\
  response (trace (self mem_controller alice_auth (down alice_store))) = [].
Proof.
  rewrite (@self_rejects_when_lookup_throws num mem_host Store mem_controller alice_auth
             (down alice_store) (down alice_store) StoreUnavailable eq_refl).
  split; reflexivity.
Defined.

(** X9 on the in-memory instance: a token whose subject is not in the store. *)
Lemma self_answers_empty_for_unknown_identity_witness :
  trace (self mem_controller ghost_auth alice_store)
    = [E_findById (Int 7) (Returned None);
       E_json (JsObject [("password", JsUndefined)])].
Proof.
  rewrite (proj1 (@self_answers_empty_for_unknown_identity num mem_host Store
                    mem_controller ghost_auth alice_store alice_store eq_refl)).
  reflexivity.
Defined.

(** X10 on the in-memory instance: Alice logs in. *)
Lemma login_success_trace_witness :
  answered_with_id (trace (login mem_controller alice_form alice_store)) /\
  exists user : User num,
    In (E_comparePassword "p1" (User_password user) (Returned true))
       (trace (login mem_controller alice_form alice_store)).
Proof.
  assert (Hanswered : answered_with_id (trace (login mem_controller alice_form alice_store)))
    by (exists (Int 1); find_event).
  split; [exact Hanswered | ].
  destruct (login_success_trace mem_controller alice_form alice_store Hanswered)
    as [user [accessToken [record [refreshToken Htrace]]]].
  cbv zeta in Htrace.
  exists user. rewrite Htrace. pick_event.
Defined.

(** X11 on the in-memory instance: Alice refreshes. *)
Lemma refresh_success_trace_witness :
  answered_with_id (trace (refresh mem_controller alice_auth alice_store)) /\
  exists (record : RefreshToken num) o,
    In (E_generateRefreshToken
          (with_id (payload_of_auth (auth alice_auth))
             (JS_String (RefreshToken_id record))) o)
       (trace (refresh mem_controller alice_auth alice_store)).
Proof.
  assert (Hanswered : answered_with_id (trace (refresh mem_controller alice_auth alice_store)))
    by (exists (Int 1); find_event).
  split; [exact Hanswered | ].
  destruct (refresh_success_trace mem_controller alice_auth alice_store Hanswered)
    as [user [accessToken [record [refreshToken Htrace]]]].
  cbv zeta in Htrace.
  exists record, (Returned refreshToken). rewrite Htrace. pick_event.
Defined.

(** X12 on the in-memory instance: Alice registers a second time. *)
Lemma register_stops_when_create_throws_witness :
  isEmpty (validationResult alice_form) = true /\
  filter is_token_step (trace (register mem_controller alice_form alice_store)) = [] /\
  response (trace (register mem_controller alice_form alice_store))
    = [E_next (createHttpError 400 "Email is already exists!")].
Proof.
  split; [reflexivity | ].
  exact (proj2 (@register_stops_when_create_throws num mem_host Store mem_controller
                  alice_form alice_store alice_store
                  (createHttpError 400 "Email is already exists!") eq_refl eq_refl)).
Defined.

(** X13 on the in-memory instance, with a token service that cannot sign
    refresh tokens: Alice's registration leaves record 2 behind, and the
    create is its only store operation. *)
Lemma record_outlives_failed_signing_witness :
  (exists (user : User num) (record : RefreshToken num),
      store_ops (trace (register mem_controller_no_sign alice_form empty_store))
        = [E_persistRefreshToken user (Returned record)] /\
      Some "2" = Some (JS_String (RefreshToken_id record))) /\
  cookies (trace (register mem_controller_no_sign alice_form empty_store)) = [] /\
  response (trace (register mem_controller_no_sign alice_form empty_store))
    = [E_next SigningFailed].
Proof.
  destruct (record_outlives_failed_signing mem_controller_no_sign alice_form alice_auth
              empty_store) as [Hregister _].
  destruct (Hregister (with_id (payload_of_user alice) "2") SigningFailed)
    as [Hrecord [_ Hrest]]; [find_event | ].
  split; [exact Hrecord | exact Hrest].
Defined.

(** X14 on the in-memory instance, with a token store that cannot delete:
    Alice's refresh leaves the new record 3 beside the old record 2. *)
Lemma refresh_deletion_failure_witness :
  In (E_deleteRefreshToken (Int 2) (Thrown StoreUnavailable))
     (trace (refresh mem_controller_no_delete alice_auth alice_store)) /\
  cookies (trace (refresh mem_controller_no_delete alice_auth alice_store)) = [] /\
  map RefreshToken_id
      (refreshTokens (final (refresh mem_controller_no_delete alice_auth alice_store)))
    = [Int 2; Int 3].
Proof.
  assert (Hthrown : In (E_deleteRefreshToken (Int 2) (Thrown StoreUnavailable))
                       (trace (refresh mem_controller_no_delete alice_auth alice_store)))
    by find_event.
  split; [exact Hthrown | ].
  destruct (refresh_deletion_failure mem_controller_no_delete alice_auth alice_store
              (Int 2) StoreUnavailable Hthrown) as [accessToken [user [record Htrace]]].
  rewrite Htrace. split; reflexivity.
Defined.
